(** * go_session_store: session creation with retry on collision

    A shallow embedding of the two Go files of the repository:

    - package [sessions]: [randomSource], a [SessionIdGenerator] that fills a
      freshly made buffer from an [io.Reader];
    - package [go_session_store]: the [SessionStorer] and
      [SessionIdGenerator] interfaces, the sentinel [ErrSessionCollision] and
      the entry point [New] with its retry loop.

    Interfaces are type classes over the state of the implementing object;
    a method takes that state and returns its results together with the next
    state.  Methods of collaborators are total functions: a collaborator that
    panics or never returns is outside the model.  Go's [int] is a [Z];
    the only arithmetic of the code is [i++] below [maxGenerateAttempts],
    which cannot wrap around. *)

From Stdlib Require Import ZArith List String Bool Lia.
From Equations Require Import Equations.
Import ListNotations.

Local Open Scope Z_scope.

(** ** Go values *)

Module Go.

(** A [[]byte] value: the nil slice, or a slice over a backing array with the
    given elements.  [[]byte{}] and [make([]byte, 0)] are non-nil and empty. *)
Inductive byte_slice : Type :=
| NilSlice
| Slice (elems : list Byte.byte).

Definition len (b : byte_slice) : Z :=
  match b with
  | NilSlice => 0
  | Slice elems => Z.of_nat (List.length elems)
  end.

Definition is_nil (b : byte_slice) : bool :=
  match b with
  | NilSlice => true
  | Slice _ => false
  end.

(** The dynamic value held by a non-nil [error] interface value.  The errors
    made by [errors.New] and by [fmt.Errorf] with [%w] are pointers: [ptr] is
    the address of the pointed struct, which is all that [==] looks at.  An
    error of a comparable struct type is compared field by field. *)
Inductive error_value : Type :=
| errorString (ptr : positive) (s : string)
| wrapError (ptr : positive) (msg : string) (inner : error_value)
| structError (type_name : string) (msg : string).

(** An [error] interface value; [None] is [nil]. *)
Definition error : Type := option error_value.

Definition nil : error := None.

(** The [Error()] method. *)
Definition Error (e : error_value) : string :=
  match e with
  | errorString _ s => s
  | wrapError _ msg _ => msg
  | structError _ msg => msg
  end.

(** [errors.Unwrap]. *)
Definition Unwrap (e : error_value) : error :=
  match e with
  | wrapError _ _ inner => Some inner
  | _ => nil
  end.

(** [==] on two non-nil interface values: the dynamic types are identical and
    the dynamic values are equal. *)
Definition error_value_eqb (a b : error_value) : bool :=
  match a, b with
  | errorString p _, errorString q _ => Pos.eqb p q
  | wrapError p _ _, wrapError q _ _ => Pos.eqb p q
  | structError t m, structError t' m' => String.eqb t t' && String.eqb m m'
  | _, _ => false
  end.

(** [==] on [error] values. *)
Definition error_eqb (a b : error) : bool :=
  match a, b with
  | None, None => true
  | Some x, Some y => error_value_eqb x y
  | _, _ => false
  end.

(** What a call does: it returns its results, or it panics. *)
Inductive outcome (A : Type) : Type :=
| Returned (a : A)
| Panicked.
Arguments Returned {A} a.
Arguments Panicked {A}.

(** [make([]byte, n)]: a zeroed backing array of [n] elements; a negative
    length panics.  Memory is taken to be unbounded. *)
Definition make (n : Z) : outcome (list Byte.byte) :=
  if n <? 0 then Panicked else Returned (repeat Byte.x00 (Z.to_nat n)).

(** [io.Reader].  [Read r p] is the call [r.Read(p)] on a buffer holding [p]:
    it gives the contents of the buffer after the call, the count [n] and the
    error that the reader reports, and the reader's next state.  A callee
    writes to the elements of the caller's slice and cannot change its
    length, which is the law [Read_len]. *)
Class Reader (R : Type) : Type := {
  Read : R -> list Byte.byte -> (list Byte.byte * Z * error) * R;
  Read_len :
    forall r p, List.length (fst (fst (fst (Read r p)))) = List.length p
}.

End Go.

Import Go.

(** ** Package go_session_store *)

(** [SessionIdGenerator], over the state [G] of the generator. *)
Class SessionIdGenerator (G : Type) : Type := {
  Generate : G -> outcome ((byte_slice * error) * G)
}.

(** [var ErrSessionCollision = errors.New(...)]: allocated once, when the
    package is initialised. *)
Definition ErrSessionCollision_ptr : positive := 1%positive.

Definition ErrSessionCollision_msg : string :=
  "unable to store session, existing session ID already exists".

Definition ErrSessionCollision : error :=
  Some (errorString ErrSessionCollision_ptr ErrSessionCollision_msg).

(** [SessionStorer], over the type [Ctx] of contexts and the state [St] of
    the storage backend.  A [context.Context] is carried to the storer and
    never inspected. *)
Class SessionStorer (Ctx St : Type) : Type := {
  GenerateAndStore :
    St -> Ctx -> string -> string -> (byte_slice * error) * St;
  Get : St -> Ctx -> byte_slice -> (string * string * error) * St
}.

Section New.

Context {Ctx St : Type} {storer : SessionStorer Ctx St}.
Variables (ctx : Ctx) (userId metaData : string).
Variable maxGenerateAttempts : Z.

(** The [for] loop of [New], entered with loop variable [i] and storer state
    [st]; the named results [session] and [err] are assigned by each call and
    read only right after it. *)
Equations? New_loop (i : Z) (st : St) : (byte_slice * error) * St
  by wf (Z.to_nat (maxGenerateAttempts - i)) lt :=
  New_loop i st with Z_lt_dec i maxGenerateAttempts := {
    | right _ => ((Slice [], ErrSessionCollision), st)
    | left _ with GenerateAndStore st ctx userId metaData := {
      | ((session, err), st') with error_eqb err ErrSessionCollision := {
        | true => New_loop (i + 1) st'
        | false => ((session, err), st') } } }.
Proof. lia. Qed.

Definition New (st : St) : (byte_slice * error) * St := New_loop 0 st.

(** *** The algorithm of the specification

    The retry orchestrator as the specification words it, to be compared
    with [New]: a machine with the states RUNNING and DONE, where RUNNING
    holds the attempt counter and DONE the returned pair.  [empty] is the
    identifier of no bytes. *)
Inductive machine : Type :=
| RUNNING (attempt : Z) (st : St)
| DONE (result : byte_slice) (err : error) (st : St).

Definition empty : byte_slice := Slice [].

Definition collision_signal : error := ErrSessionCollision.

Definition machine_step (m : machine) : machine :=
  match m with
  | RUNNING attempt st =>
      if attempt <? maxGenerateAttempts then
        let '((result, err), st') := GenerateAndStore st ctx userId metaData in
        if error_eqb err collision_signal
        then RUNNING (attempt + 1) st'
        else DONE result err st'
      else DONE empty collision_signal st
  | DONE _ _ _ => m
  end.

Fixpoint machine_run (fuel : nat) (m : machine) : machine :=
  match fuel with
  | O => m
  | S fuel' => machine_run fuel' (machine_step m)
  end.

(** The entry point of the specification: the machine is started at attempt
    0 and given one step more than the budget. *)
Definition CreateSession (st : St) : option ((byte_slice * error) * St) :=
  match machine_run (S (Z.to_nat maxGenerateAttempts)) (RUNNING 0 st) with
  | DONE result err st' => Some ((result, err), st')
  | RUNNING _ _ => None
  end.

(** *** Observing a storer *)

(** The storer's state after [j] calls of [GenerateAndStore] with the
    arguments of this invocation of [New]. *)
Fixpoint after_calls (j : nat) (st : St) : St :=
  match j with
  | O => st
  | S j' => after_calls j' (snd (GenerateAndStore st ctx userId metaData))
  end.

(** What call number [j + 1] returns. *)
Definition response (j : nat) (st : St) : byte_slice * error :=
  fst (GenerateAndStore (after_calls j st) ctx userId metaData).

Definition collides (r : byte_slice * error) : bool :=
  error_eqb (snd r) ErrSessionCollision.

End New.

Arguments machine : clear implicits.

(** A storer wrapped so that it counts the invocations of
    [GenerateAndStore], the way a test stub does. *)
Record counted (St : Type) : Type := Counted {
  inner : St;
  calls : nat
}.
Arguments Counted {St} inner calls.
Arguments inner {St} c.
Arguments calls {St} c.

#[export] Instance counting {Ctx St : Type}
  (storer : SessionStorer Ctx St) : SessionStorer Ctx (counted St) := {
  GenerateAndStore c ctx userId metaData :=
    let '(r, st') := GenerateAndStore (inner c) ctx userId metaData in
    (r, Counted st' (S (calls c)));
  Get c ctx session :=
    let '(r, st') := Get (inner c) ctx session in
    (r, Counted st' (calls c))
}.

(** A storer that plays a script, for tests: each call of [GenerateAndStore]
    returns the next response of [upcoming], and [afterwards] once they are
    used up. *)
Record script : Type := Script {
  upcoming : list (byte_slice * error);
  afterwards : byte_slice * error
}.

#[export] Instance scripted : SessionStorer unit script := {
  GenerateAndStore st _ _ _ :=
    match upcoming st with
    | [] => (afterwards st, st)
    | r :: rest => (r, Script rest (afterwards st))
    end;
  Get st _ _ := ((EmptyString, EmptyString, nil), st)
}.

(** Values used by the tests: a stored session, and an error of the storage
    backend. *)
Definition session_abc : byte_slice := Slice [Byte.x61; Byte.x62; Byte.x63].

Definition errUnavailable : error_value :=
  errorString 3%positive "storage unavailable".

(** ** Package sessions *)

Record randomSource (R : Type) : Type := {
  reader : R;
  bytes : Z
}.
Arguments reader {R} r.
Arguments bytes {R} r.

Definition NewRandomSource {R : Type} (bytes : Z) (randomSourceReader : R)
  : randomSource R :=
  {| reader := randomSourceReader; bytes := bytes |}.

(** [Generate]: the count returned by [Read] is dropped; the buffer and the
    reader's error are returned as they are. *)
Definition randomSource_Generate {R : Type} `{Reader R} (r : randomSource R)
  : outcome ((byte_slice * error) * randomSource R) :=
  match make (bytes r) with
  | Panicked => Panicked
  | Returned b =>
      let '((b', _, err), rd') := Read (reader r) b in
      Returned ((Slice b', err), {| reader := rd'; bytes := bytes r |})
  end.

#[export] Instance randomSource_SessionIdGenerator {R : Type} `{Reader R}
  : SessionIdGenerator (randomSource R) := {
  Generate := randomSource_Generate
}.

(** A reader over bytes held in memory, as [bytes.Buffer] is: [Read] copies
    as many bytes as it has and as fit into [p], and reports [io.EOF] once
    nothing is left and [p] is not empty. *)
Definition EOF : error := Some (errorString 2%positive "EOF").

Definition memory_Read (avail p : list Byte.byte)
  : (list Byte.byte * Z * error) * list Byte.byte :=
  match avail, p with
  | [], _ :: _ => ((p, 0, EOF), avail)
  | _, _ =>
      let n := Nat.min (List.length avail) (List.length p) in
      ((firstn n avail ++ skipn n p, Z.of_nat n, nil), skipn n avail)
  end.

Lemma memory_Read_len (avail p : list Byte.byte) :
  List.length (fst (fst (fst (memory_Read avail p)))) = List.length p.
Proof.
  unfold memory_Read.
  destruct avail as [|a avail]; destruct p as [|x p]; try reflexivity;
    cbn [fst]; rewrite length_app, length_firstn, length_skipn; lia.
Qed.

#[export] Instance memory_reader : Reader (list Byte.byte) := {
  Read := memory_Read;
  Read_len := memory_Read_len
}.

(** *** Further observers *)

(** A storer wrapped so that it keeps the arguments of each call of
    [GenerateAndStore], oldest first. *)
Record logged (Ctx St : Type) : Type := Logged {
  backend : St;
  log : list (Ctx * string * string)
}.
Arguments Logged {Ctx St} backend log.
Arguments backend {Ctx St} l.
Arguments log {Ctx St} l.

#[export] Instance logging {Ctx St : Type}
  (storer : SessionStorer Ctx St) : SessionStorer Ctx (logged Ctx St) := {
  GenerateAndStore l ctx userId metaData :=
    let '(r, st') := GenerateAndStore (backend l) ctx userId metaData in
    (r, Logged st' (log l ++ [(ctx, userId, metaData)]));
  Get l ctx session :=
    let '(r, st') := Get (backend l) ctx session in
    (r, Logged st' (log l))
}.

(** A reader wrapped so that it keeps the buffers it was handed, as they
    were on entry, oldest first. *)
Record recorded (R : Type) : Type := Recorded {
  source : R;
  handed : list (list Byte.byte)
}.
Arguments Recorded {R} source handed.
Arguments source {R} r.
Arguments handed {R} r.

Definition recorded_Read {R : Type} `{Reader R}
  (r : recorded R) (p : list Byte.byte)
  : (list Byte.byte * Z * error) * recorded R :=
  (fst (Read (source r) p),
   Recorded (snd (Read (source r) p)) (handed r ++ [p])).

#[export] Instance recording {R : Type} (rdr : Reader R)
  : Reader (recorded R) := {
  Read := recorded_Read;
  Read_len := fun r p => Read_len (source r) p
}.

(** [k] calls of [Generate] in a row on one generator: the pairs they
    return, oldest first, and the generator afterwards.  A call that panics
    ends the run. *)
Fixpoint Generate_times {G : Type} `{SessionIdGenerator G}
  (k : nat) (g : G) : outcome (list (byte_slice * error) * G) :=
  match k with
  | O => Returned ([], g)
  | S k' =>
      match Generate g with
      | Panicked => Panicked
      | Returned (r, g') =>
          match Generate_times k' g' with
          | Panicked => Panicked
          | Returned (rs, g'') => Returned (r :: rs, g'')
          end
      end
  end.

(** * Properties *)

(** ** The retry loop *)

Section NewFacts.

Context {Ctx St : Type} {storer : SessionStorer Ctx St}.
Variables (ctx : Ctx) (userId metaData : string).
Variable maxGenerateAttempts : Z.

#[local] Abbreviation loop :=
  (New_loop ctx userId metaData maxGenerateAttempts).
#[local] Abbreviation call st := (GenerateAndStore st ctx userId metaData).

(** One turn of the loop, as the source has it. *)
Lemma New_loop_turn (i : Z) (st : St) :
  loop i st =
  if i <? maxGenerateAttempts then
    if collides (fst (call st))
    then loop (i + 1) (snd (call st))
    else call st
  else ((Slice [], ErrSessionCollision), st).
Proof.
  rewrite New_loop_equation_1. unfold collides.
  destruct (Z_lt_dec i maxGenerateAttempts) as [Hlt | Hge]; cbn.
  - destruct (Z.ltb_spec i maxGenerateAttempts); [| lia].
    destruct (call st) as [[session err] st']; cbn.
    destruct (error_eqb err ErrSessionCollision); reflexivity.
  - destruct (Z.ltb_spec i maxGenerateAttempts); [lia | reflexivity].
Qed.

Lemma New_loop_exhausted (i : Z) (st : St) :
  maxGenerateAttempts <= i ->
  loop i st = ((Slice [], ErrSessionCollision), st).
Proof.
  intros Hge. rewrite New_loop_turn.
  rewrite <- Z.ltb_ge in Hge. rewrite Hge. reflexivity.
Qed.

Lemma New_loop_retry (i : Z) (st : St) :
  i < maxGenerateAttempts ->
  collides (fst (call st)) = true ->
  loop i st = loop (i + 1) (snd (call st)).
Proof.
  intros Hlt Hc. rewrite New_loop_turn.
  rewrite <- Z.ltb_lt in Hlt. rewrite Hlt, Hc. reflexivity.
Qed.

Lemma New_loop_return (i : Z) (st : St) :
  i < maxGenerateAttempts ->
  collides (fst (call st)) = false ->
  loop i st = call st.
Proof.
  intros Hlt Hc. rewrite New_loop_turn.
  rewrite <- Z.ltb_lt in Hlt. rewrite Hlt, Hc. reflexivity.
Qed.

(** The state after one more call. *)
Lemma after_calls_succ (j : nat) :
  forall st : St,
    after_calls ctx userId metaData (S j) st
    = snd (call (after_calls ctx userId metaData j st)).
Proof.
  induction j as [|j IH]; intros st; [reflexivity |].
  change (after_calls ctx userId metaData (S (S j)) st)
    with (after_calls ctx userId metaData (S j) (snd (call st))).
  now rewrite IH.
Qed.

(** [K] collisions in a row use up [K] turns and [K] calls. *)
Lemma New_loop_collisions (K : nat) :
  forall (i : Z) (st : St),
    i + Z.of_nat K <= maxGenerateAttempts ->
    (forall j, (j < K)%nat ->
       collides (response ctx userId metaData j st) = true) ->
    loop i st = loop (i + Z.of_nat K) (after_calls ctx userId metaData K st).
Proof.
  induction K as [|K IH]; intros i st Hle Hall.
  - cbn. now rewrite Z.add_0_r.
  - rewrite New_loop_retry; [| lia | exact (Hall O (Nat.lt_0_succ K))].
    rewrite IH; [| lia |].
    + cbn [after_calls]. f_equal. lia.
    + intros j Hj. apply (Hall (S j)). lia.
Qed.

(** Induction along the turns of the loop: a property of the start of a
    turn and of the loop's result holds when it holds for the three ways a
    turn ends. *)
Lemma New_loop_induction (P : Z -> St -> (byte_slice * error) * St -> Prop) :
  (forall i st, maxGenerateAttempts <= i ->
     P i st ((Slice [], ErrSessionCollision), st)) ->
  (forall i st, i < maxGenerateAttempts ->
     collides (fst (call st)) = false -> P i st (call st)) ->
  (forall i st r, i < maxGenerateAttempts ->
     collides (fst (call st)) = true ->
     P (i + 1) (snd (call st)) r -> P i st r) ->
  forall i st, P i st (loop i st).
Proof.
  intros Hout Hret Hnext i st.
  remember (Z.to_nat (maxGenerateAttempts - i)) as k eqn:Hk.
  revert i st Hk.
  induction k as [|k IH]; intros i st Hk.
  - rewrite New_loop_exhausted by lia. apply Hout. lia.
  - assert (Hlt : i < maxGenerateAttempts) by lia.
    destruct (collides (fst (call st))) eqn:Hc.
    + rewrite New_loop_retry by assumption.
      apply Hnext; try assumption. apply IH. lia.
    + rewrite New_loop_return by assumption. now apply Hret.
Qed.

(** The machine of the specification, started in RUNNING with enough fuel,
    stops in DONE with the result of the loop. *)
Lemma machine_run_DONE (fuel : nat)
  (result : byte_slice) (err : error) (st : St) :
  machine_run ctx userId metaData maxGenerateAttempts fuel (DONE result err st)
  = DONE result err st.
Proof. induction fuel as [|fuel IH]; [reflexivity | exact IH]. Qed.

Lemma machine_run_RUNNING (fuel : nat) :
  forall (i : Z) (st : St),
    (Z.to_nat (maxGenerateAttempts - i) < fuel)%nat ->
    machine_run ctx userId metaData maxGenerateAttempts fuel (RUNNING i st)
    = DONE (fst (fst (loop i st))) (snd (fst (loop i st))) (snd (loop i st)).
Proof.
  induction fuel as [|fuel IH]; intros i st Hfuel; [lia |].
  cbn [machine_run machine_step]. rewrite New_loop_turn.
  unfold collides, collision_signal.
  destruct (Z.ltb_spec i maxGenerateAttempts) as [Hlt | Hge].
  - destruct (call st) as [[result err] st'] eqn:Hcall. cbn [fst snd].
    destruct (error_eqb err ErrSessionCollision).
    + apply IH. lia.
    + apply machine_run_DONE.
  - apply machine_run_DONE.
Qed.

End NewFacts.

(** ** Counting the calls *)

Section Counting.

Context {Ctx St : Type} {storer : SessionStorer Ctx St}.
Variables (ctx : Ctx) (userId metaData : string).

#[local] Abbreviation call st := (GenerateAndStore st ctx userId metaData).

Lemma counting_call (st : St) (n : nat) :
  GenerateAndStore (SessionStorer := counting storer)
    (Counted st n) ctx userId metaData
  = (fst (call st), Counted (snd (call st)) (S n)).
Proof. cbn. destruct (call st); reflexivity. Qed.

Lemma counting_after_calls (j : nat) :
  forall (st : St) (n : nat),
    after_calls (storer := counting storer) ctx userId metaData j (Counted st n)
    = Counted (after_calls ctx userId metaData j st) (n + j).
Proof.
  induction j as [|j IH]; intros st n.
  - cbn [after_calls]. now rewrite Nat.add_0_r.
  - cbn [after_calls]. rewrite counting_call. cbn [snd].
    rewrite IH. f_equal. lia.
Qed.

Lemma counting_response (j : nat) (st : St) (n : nat) :
  response (storer := counting storer) ctx userId metaData j (Counted st n)
  = response ctx userId metaData j st.
Proof.
  unfold response. rewrite counting_after_calls, counting_call. reflexivity.
Qed.

(** After [K] collisions the next response that is not a collision is what
    [New] returns, and the storer has been called [K + 1] times. *)
Lemma New_counting_returns (maxGenerateAttempts : Z) (K : nat)
  (st : St) (n : nat) :
  Z.of_nat K < maxGenerateAttempts ->
  (forall j, (j < K)%nat ->
     collides (response ctx userId metaData j st) = true) ->
  collides (response ctx userId metaData K st) = false ->
  New (storer := counting storer) ctx userId metaData maxGenerateAttempts
    (Counted st n)
  = (response ctx userId metaData K st,
     Counted (after_calls ctx userId metaData (S K) st) (n + K + 1)).
Proof.
  intros HK Hall Hlast. unfold New.
  rewrite (New_loop_collisions ctx userId metaData maxGenerateAttempts K);
    [| lia | intros j Hj; rewrite counting_response; auto].
  rewrite counting_after_calls.
  rewrite New_loop_return; [| lia | rewrite counting_call; exact Hlast].
  rewrite counting_call, after_calls_succ. unfold response.
  f_equal. f_equal. lia.
Qed.

(** A storer that keeps colliding is called once for each unit of the
    budget. *)
Lemma New_counting_exhausts (maxGenerateAttempts : Z) (st : St) (n : nat) :
  (forall j, (Z.of_nat j < maxGenerateAttempts) ->
     collides (response ctx userId metaData j st) = true) ->
  New (storer := counting storer) ctx userId metaData maxGenerateAttempts
    (Counted st n)
  = ((Slice [], ErrSessionCollision),
     Counted (after_calls ctx userId metaData (Z.to_nat maxGenerateAttempts) st)
       (n + Z.to_nat maxGenerateAttempts)).
Proof.
  intros Hall. unfold New.
  destruct (Z.le_gt_cases 0 maxGenerateAttempts) as [Hpos | Hneg].
  - rewrite (New_loop_collisions ctx userId metaData maxGenerateAttempts
               (Z.to_nat maxGenerateAttempts));
      [| lia | intros j Hj; rewrite counting_response; apply Hall; lia].
    rewrite New_loop_exhausted by lia.
    rewrite counting_after_calls. reflexivity.
  - rewrite New_loop_exhausted by lia.
    replace (Z.to_nat maxGenerateAttempts) with O by lia.
    cbn [after_calls]. now rewrite Nat.add_0_r.
Qed.

(** Counting changes nothing else: on the wrapped storer the loop returns
    what it returns on the storer itself, and leaves that storer in the
    same state. *)
Lemma New_loop_counting (maxGenerateAttempts : Z) (i : Z) (st : St) :
  forall n : nat,
    let r := New_loop (storer := counting storer) ctx userId metaData
               maxGenerateAttempts i (Counted st n) in
    fst r = fst (New_loop ctx userId metaData maxGenerateAttempts i st)
    /\ inner (snd r)
       = snd (New_loop ctx userId metaData maxGenerateAttempts i st).
Proof.
  apply (New_loop_induction ctx userId metaData maxGenerateAttempts
           (fun i0 st0 r0 =>
              forall n : nat,
                let r := New_loop (storer := counting storer) ctx userId
                           metaData maxGenerateAttempts i0 (Counted st0 n) in
                fst r = fst r0 /\ inner (snd r) = snd r0)).
  - intros i0 st0 Hge n. cbv zeta.
    rewrite New_loop_exhausted by assumption. now split.
  - intros i0 st0 Hlt Hc n. cbv zeta.
    rewrite New_loop_return;
      [| assumption | now rewrite counting_call].
    rewrite counting_call. cbn [fst snd inner].
    now destruct (call st0).
  - intros i0 st0 r0 Hlt Hc IH n. cbv zeta.
    rewrite New_loop_retry;
      [| assumption | now rewrite counting_call].
    rewrite counting_call. cbn [snd]. apply IH.
Qed.

(** The loop never lowers the count, and a turn under the budget raises
    it. *)
Lemma New_loop_calls_le (maxGenerateAttempts : Z) (i : Z)
  (c : counted St) :
  (calls c
   <= calls (snd (New_loop (storer := counting storer) ctx userId metaData
                    maxGenerateAttempts i c)))%nat.
Proof.
  apply (New_loop_induction (storer := counting storer) ctx userId metaData
           maxGenerateAttempts
           (fun _ c0 r => (calls c0 <= calls (snd r))%nat)).
  - intros _ c0 _. cbn. lia.
  - intros _ [st0 n0] _ _. rewrite counting_call. cbn. lia.
  - intros _ [st0 n0] r _ _. rewrite counting_call. cbn. lia.
Qed.

End Counting.

(** The scripted storer answers [afterwards] for good once its script is
    used up. *)
Lemma scripted_afterwards (userId metaData : string) (j : nat) :
  forall st : script,
    upcoming st = [] ->
    response tt userId metaData j st = afterwards st.
Proof.
  unfold response.
  induction j as [|j IH]; intros [up aft] Hup; cbn in Hup; subst up.
  - reflexivity.
  - cbn [after_calls]. exact (IH (Script [] aft) eq_refl).
Qed.

(** ** The claims about [New] *)

(** C1 (retry on collision): when the storer reports the collision error on
    each of its first [K] calls, with [K] below the budget, and call [K + 1]
    succeeds with session [s], [New] returns [s] with a nil error, and
    [GenerateAndStore] has been invoked exactly [K + 1] times. *)
Theorem New_retry_on_collision
  {Ctx St : Type} (storer : SessionStorer Ctx St)
  (ctx : Ctx) (userId metaData : string) (maxGenerateAttempts : Z)
  (K : nat) (st : St) (n : nat) (s : byte_slice) (st' : St) :
  Z.of_nat K < maxGenerateAttempts ->
  (forall j, (j < K)%nat ->
     collides (response ctx userId metaData j st) = true) ->
  GenerateAndStore (after_calls ctx userId metaData K st) ctx userId metaData
  = ((s, nil), st') ->
  New (storer := counting storer) ctx userId metaData maxGenerateAttempts
    (Counted st n)
  = ((s, nil), Counted st' (n + K + 1)).
Proof.
  intros HK Hall Hok.
  rewrite (New_counting_returns ctx userId metaData maxGenerateAttempts K);
    try assumption.
  - rewrite after_calls_succ. unfold response. now rewrite Hok.
  - unfold response. now rewrite Hok.
Qed.

Lemma New_retry_on_collision_witness :
  New (storer := counting scripted) tt "alice" "role=admin" 5
    (Counted
       (Script [(NilSlice, ErrSessionCollision);
                (NilSlice, ErrSessionCollision);
                (session_abc, nil)]
          (NilSlice, Some errUnavailable)) 0)
  = ((session_abc, nil),
     Counted (Script [] (NilSlice, Some errUnavailable)) 3).
Proof.
  apply (New_retry_on_collision scripted tt "alice" "role=admin" 5 2).
  - lia.
  - intros [|[|j]] Hj; [reflexivity | reflexivity | lia].
  - reflexivity.
Defined.

(** C2 (exhaustion reports collision): when the storer reports the collision
    error on every call, [New] invokes [GenerateAndStore] exactly
    [maxGenerateAttempts] times ([Z.to_nat] of it: none for a negative
    budget) and then returns the empty identifier [[]byte{}] together with
    [ErrSessionCollision] itself. *)
Theorem New_exhaustion_reports_collision
  {Ctx St : Type} (storer : SessionStorer Ctx St)
  (ctx : Ctx) (userId metaData : string) (maxGenerateAttempts : Z)
  (st : St) (n : nat) :
  (forall j, collides (response ctx userId metaData j st) = true) ->
  New (storer := counting storer) ctx userId metaData maxGenerateAttempts
    (Counted st n)
  = ((Slice [], ErrSessionCollision),
     Counted (after_calls ctx userId metaData (Z.to_nat maxGenerateAttempts) st)
       (n + Z.to_nat maxGenerateAttempts)).
Proof.
  intros Hall. apply New_counting_exhausts. intros j _. apply Hall.
Qed.

Lemma New_exhaustion_reports_collision_witness :
  New (storer := counting scripted) tt "alice" "role=admin" 3
    (Counted (Script [] (NilSlice, ErrSessionCollision)) 0)
  = ((Slice [], ErrSessionCollision),
     Counted (Script [] (NilSlice, ErrSessionCollision)) 3).
Proof.
  apply (New_exhaustion_reports_collision scripted tt "alice" "role=admin" 3
           (Script [] (NilSlice, ErrSessionCollision)) 0).
  intros j. rewrite scripted_afterwards; reflexivity.
Defined.

(** C3 (no retry on another error): when a call of the storer fails with an
    error that is not the collision sentinel, [New] returns that error
    unmodified, with the session of that call, and makes no further call.
    The failing call is call [K + 1], after [K] collisions; for [K = 0] the
    first call fails and [GenerateAndStore] is invoked exactly once.  A
    first call takes place only under a positive budget, which is
    [Z.of_nat K < maxGenerateAttempts] at [K = 0]. *)
Theorem New_no_retry_on_other_error
  {Ctx St : Type} (storer : SessionStorer Ctx St)
  (ctx : Ctx) (userId metaData : string) (maxGenerateAttempts : Z)
  (K : nat) (st : St) (n : nat) (s : byte_slice) (e : error_value) (st' : St) :
  Z.of_nat K < maxGenerateAttempts ->
  (forall j, (j < K)%nat ->
     collides (response ctx userId metaData j st) = true) ->
  GenerateAndStore (after_calls ctx userId metaData K st) ctx userId metaData
  = ((s, Some e), st') ->
  error_eqb (Some e) ErrSessionCollision = false ->
  New (storer := counting storer) ctx userId metaData maxGenerateAttempts
    (Counted st n)
  = ((s, Some e), Counted st' (n + K + 1)).
Proof.
  intros HK Hall Hfail Hother.
  rewrite (New_counting_returns ctx userId metaData maxGenerateAttempts K);
    try assumption.
  - rewrite after_calls_succ. unfold response. now rewrite Hfail.
  - unfold response, collides. now rewrite Hfail.
Qed.

Lemma New_no_retry_on_other_error_witness :
  New (storer := counting scripted) tt "alice" "role=admin" 5
    (Counted
       (Script [(session_abc, Some errUnavailable)] (session_abc, nil)) 0)
  = ((session_abc, Some errUnavailable),
     Counted (Script [] (session_abc, nil)) 1).
Proof.
  apply (New_no_retry_on_other_error scripted tt "alice" "role=admin" 5 0).
  - lia.
  - intros j Hj. lia.
  - reflexivity.
  - reflexivity.
Defined.

(** C4 (zero budget): with [maxGenerateAttempts] zero or negative, [New]
    returns the empty identifier and [ErrSessionCollision], and the storer
    is left as it was: [GenerateAndStore] is not invoked. *)
Theorem New_zero_budget
  {Ctx St : Type} (storer : SessionStorer Ctx St)
  (ctx : Ctx) (userId metaData : string) (maxGenerateAttempts : Z)
  (st : St) (n : nat) :
  maxGenerateAttempts <= 0 ->
  New (storer := counting storer) ctx userId metaData maxGenerateAttempts
    (Counted st n)
  = ((Slice [], ErrSessionCollision), Counted st n).
Proof.
  intros Hle. unfold New. now apply New_loop_exhausted.
Qed.

Lemma New_zero_budget_witness :
  New (storer := counting scripted) tt "alice" "role=admin" 0
    (Counted (Script [] (session_abc, nil)) 0)
  = ((Slice [], ErrSessionCollision),
     Counted (Script [] (session_abc, nil)) 0).
Proof.
  apply (New_zero_budget scripted tt "alice" "role=admin" 0). lia.
Defined.

(** C5 (refinement): the two-state machine of the specification, started at
    attempt 0, reaches DONE, and its result, error and storer state are
    those of [New], for every storer, every state of it and every budget. *)
Theorem New_refines_CreateSession
  {Ctx St : Type} (storer : SessionStorer Ctx St)
  (ctx : Ctx) (userId metaData : string) (maxGenerateAttempts : Z)
  (st : St) :
  CreateSession ctx userId metaData maxGenerateAttempts st
  = Some (New ctx userId metaData maxGenerateAttempts st).
Proof.
  unfold CreateSession, New.
  rewrite machine_run_RUNNING by lia.
  destruct (New_loop ctx userId metaData maxGenerateAttempts 0 st)
    as [[result err] st'].
  reflexivity.
Qed.

(** What [New] returns is the exhaustion pair, or the response of one of the
    calls of the storer, which is not a collision. *)
Lemma New_result_cases
  {Ctx St : Type} (storer : SessionStorer Ctx St)
  (ctx : Ctx) (userId metaData : string) (maxGenerateAttempts : Z)
  (st : St) :
  let r := New ctx userId metaData maxGenerateAttempts st in
  fst r = (Slice [], ErrSessionCollision)
  \/ exists j,
       response ctx userId metaData j st = fst r
       /\ collides (fst r) = false.
Proof.
  unfold New.
  apply (New_loop_induction ctx userId metaData maxGenerateAttempts
           (fun _ st0 r =>
              fst r = (Slice [], ErrSessionCollision)
              \/ exists j,
                   response ctx userId metaData j st0 = fst r
                   /\ collides (fst r) = false)).
  - intros i st0 _. now left.
  - intros i st0 _ Hc. right. now exists O.
  - intros i st0 r _ _ [Hex | [j [Hj Hc]]]; [now left |].
    right. now exists (S j).
Qed.




(** C7 (sentinel identity): [New] tells a collision from any other error by
    [==] against the one value [ErrSessionCollision], which holds exactly of
    the [*errorString] at the sentinel's address.  When the first call
    returns such an error, [New] goes on with the next turn of the loop, and
    under a budget of two or more it calls the storer again; any other
    error is returned at once, after that one call.  An error with the
    sentinel's message at another address, and an error that wraps the
    sentinel, are other errors. *)
Theorem New_collision_by_identity
  {Ctx St : Type} (storer : SessionStorer Ctx St)
  (ctx : Ctx) (userId metaData : string) (maxGenerateAttempts : Z)
  (st : St) (n : nat) (s : byte_slice) (e : error) (st' : St) :
  0 < maxGenerateAttempts ->
  GenerateAndStore st ctx userId metaData = ((s, e), st') ->
  let r := New (storer := counting storer) ctx userId metaData
             maxGenerateAttempts (Counted st n) in
  (error_eqb e ErrSessionCollision = true
   <-> exists msg, e = Some (errorString ErrSessionCollision_ptr msg))
  /\ (error_eqb e ErrSessionCollision = true ->
      r = New_loop (storer := counting storer) ctx userId metaData
            maxGenerateAttempts 1 (Counted st' (n + 1)))
  /\ (error_eqb e ErrSessionCollision = false ->
      r = ((s, e), Counted st' (n + 1)))
  /\ (1 < maxGenerateAttempts ->
      ((n + 2 <= calls (snd r))%nat
       <-> error_eqb e ErrSessionCollision = true))
  /\ (forall p, p <> ErrSessionCollision_ptr ->
      e = Some (errorString p ErrSessionCollision_msg) ->
      r = ((s, e), Counted st' (n + 1)))
  /\ (forall p msg,
      e = Some (wrapError p msg
                  (errorString ErrSessionCollision_ptr
                     ErrSessionCollision_msg)) ->
      r = ((s, e), Counted st' (n + 1))).
Proof.
  intros Hpos Hcall r.
  assert (Hc : GenerateAndStore (SessionStorer := counting storer)
                 (Counted st n) ctx userId metaData
               = ((s, e), Counted st' (n + 1))).
  { rewrite counting_call, Hcall. cbn. do 2 f_equal. lia. }
  assert (Hretry : error_eqb e ErrSessionCollision = true ->
            r = New_loop (storer := counting storer) ctx userId metaData
                  maxGenerateAttempts 1 (Counted st' (n + 1))).
  { intros He. unfold r, New.
    rewrite New_loop_retry; [| lia | unfold collides; now rewrite Hc].
    now rewrite Hc. }
  assert (Hreturn : error_eqb e ErrSessionCollision = false ->
            r = ((s, e), Counted st' (n + 1))).
  { intros He. unfold r, New.
    rewrite New_loop_return; [| lia | unfold collides; now rewrite Hc].
    exact Hc. }
  split; [| split; [exact Hretry | split; [exact Hreturn | split; [| split]]]].
  - unfold ErrSessionCollision.
    destruct e as [[p s0 | p msg inner | t msg] |];
      cbn [error_eqb error_value_eqb].
    + rewrite Pos.eqb_eq. split.
      * intros ->. now exists s0.
      * intros [msg Hmsg]. now inversion Hmsg.
    + split; [discriminate | intros [m Hm]; discriminate].
    + split; [discriminate | intros [m Hm]; discriminate].
    + split; [discriminate | intros [m Hm]; discriminate].
  - intros Hbudget. split.
    + intros Hcalls.
      destruct (error_eqb e ErrSessionCollision) eqn:He; [reflexivity |].
      rewrite (Hreturn eq_refl) in Hcalls. cbn in Hcalls. lia.
    + intros He. rewrite (Hretry He).
      rewrite New_loop_turn.
      destruct (Z.ltb_spec 1 maxGenerateAttempts) as [_ | Hge]; [| lia].
      rewrite counting_call. cbn [fst snd].
      destruct (collides (fst (GenerateAndStore st' ctx userId metaData))).
      * pose proof (New_loop_calls_le ctx userId metaData
                      maxGenerateAttempts (1 + 1)
                      (Counted
                         (snd (GenerateAndStore st' ctx userId metaData))
                         (S (n + 1)))) as Hle.
        cbn [calls] in Hle. lia.
      * cbn. lia.
  - intros p Hp ->. apply Hreturn.
    unfold ErrSessionCollision. cbn [error_eqb error_value_eqb].
    apply Pos.eqb_neq. exact Hp.
  - intros p msg ->. apply Hreturn. reflexivity.
Qed.

Lemma New_collision_by_identity_witness :
  New (storer := counting scripted) tt "alice" "role=admin" 3
    (Counted
       (Script [(NilSlice,
                 Some (errorString 7%positive ErrSessionCollision_msg))]
          (session_abc, nil)) 0)
  = ((NilSlice, Some (errorString 7%positive ErrSessionCollision_msg)),
     Counted (Script [] (session_abc, nil)) 1).
Proof.
  pose proof (New_collision_by_identity scripted tt "alice" "role=admin" 3
                (Script [(NilSlice,
                          Some (errorString 7%positive
                                  ErrSessionCollision_msg))]
                   (session_abc, nil)) 0
                NilSlice
                (Some (errorString 7%positive ErrSessionCollision_msg))
                (Script [] (session_abc, nil))
                ltac:(lia) eq_refl) as H.
  cbv zeta in H.
  destruct H as (_ & _ & _ & _ & Hlookalike & _).
  apply (Hlookalike 7%positive); [discriminate | reflexivity].
Defined.

(** ** The claims about [Generate] *)

Section GenerateFacts.

Context {R : Type} {rdr : Reader R}.

(** For a length that is not negative, [Generate] returns the buffer and the
    error of the one [Read] it makes on a zeroed buffer of that length. *)
Lemma randomSource_Generate_returns (N : Z) (rd : R) :
  0 <= N ->
  let read := Read rd (repeat Byte.x00 (Z.to_nat N)) in
  Generate (NewRandomSource N rd)
  = Returned ((Slice (fst (fst (fst read))), snd (fst read)),
              NewRandomSource N (snd read)).
Proof.
  intros HN read. cbn [Generate randomSource_SessionIdGenerator].
  unfold randomSource_Generate, NewRandomSource, make. cbn [bytes reader].
  destruct (Z.ltb_spec N 0) as [Hneg | _]; [lia |].
  subst read.
  destruct (Read rd (repeat Byte.x00 (Z.to_nat N))) as [[[b' k] err] rd'].
  reflexivity.
Qed.

Lemma Read_zeroed_len (N : Z) (rd : R) :
  0 <= N ->
  len (Slice (fst (fst (fst (Read rd (repeat Byte.x00 (Z.to_nat N))))))) = N.
Proof.
  intros HN. cbn [len]. rewrite Read_len, repeat_length. lia.
Qed.

End GenerateFacts.

(** C8 (length invariant): for a configured length [N >= 0] and any byte
    source, a call of [Generate] that returns a nil error returns a slice
    of exactly [N] bytes. *)
Theorem Generate_length
  {R : Type} (rdr : Reader R) (N : Z) (rd : R)
  (b : byte_slice) (g' : randomSource R) :
  0 <= N ->
  Generate (NewRandomSource N rd) = Returned ((b, nil), g') ->
  len b = N.
Proof.
  intros HN Hgen.
  rewrite randomSource_Generate_returns in Hgen by assumption.
  cbv zeta in Hgen. inversion Hgen; subst.
  now apply Read_zeroed_len.
Qed.

Lemma Generate_length_witness :
  len (Slice [Byte.x0a; Byte.x0b; Byte.x0c; Byte.x0d]) = 4.
Proof.
  apply (Generate_length memory_reader 4
           [Byte.x0a; Byte.x0b; Byte.x0c; Byte.x0d; Byte.x0e]
           (Slice [Byte.x0a; Byte.x0b; Byte.x0c; Byte.x0d])
           (NewRandomSource 4 [Byte.x0e])).
  - lia.
  - reflexivity.
Defined.






(** ** Further properties of [New] *)

Section NewOutcome.

Context {Ctx St : Type} {storer : SessionStorer Ctx St}.
Variables (ctx : Ctx) (userId metaData : string).

#[local] Abbreviation resp j st := (response ctx userId metaData j st).
#[local] Abbreviation after j st := (after_calls ctx userId metaData j st).

(** Among the first [M] calls either all collide, or there is a first one
    that does not. *)
Lemma collisions_or_first_other (st : St) (M : nat) :
  (forall j, (j < M)%nat -> collides (resp j st) = true)
  \/ exists K, (K < M)%nat
       /\ (forall j, (j < K)%nat -> collides (resp j st) = true)
       /\ collides (resp K st) = false.
Proof.
  induction M as [|M [Hall | (K & HK & Hbefore & Hother)]].
  - left. intros j Hj. lia.
  - destruct (collides (resp M st)) eqn:HM.
    + left. intros j Hj.
      destruct (Nat.eq_dec j M) as [-> | Hne]; [exact HM | apply Hall; lia].
    + right. exists M. repeat split; [lia | exact Hall | exact HM].
  - right. exists K. repeat split; [lia | exact Hbefore | exact Hother].
Qed.

(** The loop looks at the distance from [i] to the budget only. *)
Lemma New_loop_shift (maxGenerateAttempts d : Z) (i : Z) (st : St) :
  New_loop ctx userId metaData maxGenerateAttempts i st
  = New_loop ctx userId metaData (maxGenerateAttempts + d) (i + d) st.
Proof.
  apply (New_loop_induction ctx userId metaData maxGenerateAttempts
           (fun i0 st0 r =>
              r = New_loop ctx userId metaData
                    (maxGenerateAttempts + d) (i0 + d) st0)).
  - intros i0 st0 Hge. now rewrite New_loop_exhausted by lia.
  - intros i0 st0 Hlt Hc. now rewrite New_loop_return by (assumption || lia).
  - intros i0 st0 r Hlt Hc ->.
    rewrite (New_loop_retry ctx userId metaData (maxGenerateAttempts + d)
               (i0 + d)) by (assumption || lia).
    f_equal. lia.
Qed.

(** [K] collisions and then a response that is not one: [New] returns that
    response and leaves the storer as that call left it. *)
Lemma New_returns (maxGenerateAttempts : Z) (K : nat) (st : St) :
  Z.of_nat K < maxGenerateAttempts ->
  (forall j, (j < K)%nat -> collides (resp j st) = true) ->
  collides (resp K st) = false ->
  New ctx userId metaData maxGenerateAttempts st
  = GenerateAndStore (after K st) ctx userId metaData.
Proof.
  intros HK Hall Hother. unfold New.
  rewrite (New_loop_collisions ctx userId metaData maxGenerateAttempts K)
    by (assumption || lia).
  now rewrite New_loop_return by (assumption || lia).
Qed.

(** Collisions all through the budget: [New] reports exhaustion and leaves
    the storer as the last call left it. *)
Lemma New_exhausts (maxGenerateAttempts : Z) (st : St) :
  (forall j, (j < Z.to_nat maxGenerateAttempts)%nat ->
     collides (resp j st) = true) ->
  New ctx userId metaData maxGenerateAttempts st
  = ((Slice [], ErrSessionCollision),
     after (Z.to_nat maxGenerateAttempts) st).
Proof.
  intros Hall. unfold New.
  destruct (Z.le_gt_cases 0 maxGenerateAttempts) as [Hpos | Hneg].
  - rewrite (New_loop_collisions ctx userId metaData maxGenerateAttempts
               (Z.to_nat maxGenerateAttempts)) by (assumption || lia).
    now rewrite New_loop_exhausted by lia.
  - rewrite New_loop_exhausted by lia.
    now replace (Z.to_nat maxGenerateAttempts) with O by lia.
Qed.

(** Every run of [New] is one of the two. *)
Lemma New_outcome (maxGenerateAttempts : Z) (st : St) :
  exists K,
    (forall j, (j < K)%nat -> collides (resp j st) = true)
    /\ ((K = Z.to_nat maxGenerateAttempts
         /\ New ctx userId metaData maxGenerateAttempts st
            = ((Slice [], ErrSessionCollision), after K st))
        \/ (Z.of_nat K < maxGenerateAttempts
            /\ collides (resp K st) = false
            /\ New ctx userId metaData maxGenerateAttempts st
               = GenerateAndStore (after K st) ctx userId metaData)).
Proof.
  destruct (collisions_or_first_other st (Z.to_nat maxGenerateAttempts))
    as [Hall | (K & HK & Hbefore & Hother)].
  - exists (Z.to_nat maxGenerateAttempts). split; [exact Hall |].
    left. split; [reflexivity | now apply New_exhausts].
  - exists K. split; [exact Hbefore |].
    right. repeat split; [lia | exact Hother |].
    apply New_returns; (assumption || lia).
Qed.

End NewOutcome.

(** On a counting storer: the two outcomes with their counts. *)
Lemma New_counting_outcome
  {Ctx St : Type} (storer : SessionStorer Ctx St)
  (ctx : Ctx) (userId metaData : string) (maxGenerateAttempts : Z)
  (st : St) (n : nat) :
  exists K,
    (forall j, (j < K)%nat ->
       collides (response ctx userId metaData j st) = true)
    /\ ((K = Z.to_nat maxGenerateAttempts
         /\ New (storer := counting storer) ctx userId metaData
              maxGenerateAttempts (Counted st n)
            = ((Slice [], ErrSessionCollision),
               Counted (after_calls ctx userId metaData K st) (n + K)))
        \/ (Z.of_nat K < maxGenerateAttempts
            /\ collides (response ctx userId metaData K st) = false
            /\ New (storer := counting storer) ctx userId metaData
                 maxGenerateAttempts (Counted st n)
               = (response ctx userId metaData K st,
                  Counted (after_calls ctx userId metaData (S K) st)
                    (n + K + 1)))).
Proof.
  destruct (collisions_or_first_other ctx userId metaData st
              (Z.to_nat maxGenerateAttempts))
    as [Hall | (K & HK & Hbefore & Hother)].
  - exists (Z.to_nat maxGenerateAttempts). split; [exact Hall |].
    left. split; [reflexivity |].
    apply New_counting_exhausts. intros j Hj. apply Hall. lia.
  - exists K. split; [exact Hbefore |].
    right. repeat split; [lia | exact Hother |].
    apply New_counting_returns; (assumption || lia).
Qed.

(** X1 (calls within the budget): whatever the storer answers, [New] calls
    [GenerateAndStore] at most [maxGenerateAttempts] times (never, for a
    budget below 1), at least once under a positive budget, and leaves the
    storer in the state that those calls, and nothing else, brought
    about. *)
Theorem New_calls_within_budget
  {Ctx St : Type} (storer : SessionStorer Ctx St)
  (ctx : Ctx) (userId metaData : string) (maxGenerateAttempts : Z)
  (st : St) (n : nat) :
  let r := New (storer := counting storer) ctx userId metaData
             maxGenerateAttempts (Counted st n) in
  (n <= calls (snd r) <= n + Z.to_nat maxGenerateAttempts)%nat
  /\ (0 < maxGenerateAttempts -> (n + 1 <= calls (snd r))%nat)
  /\ inner (snd r)
     = after_calls ctx userId metaData (calls (snd r) - n) st.
Proof.
  intros r. subst r.
  destruct (New_counting_outcome storer ctx userId metaData
              maxGenerateAttempts st n)
    as (K & _ & [(HK & ->) | (HK & _ & ->)]); cbn [snd calls inner].
  - repeat split; try lia.
    f_equal. lia.
  - repeat split; try lia.
    f_equal. lia.
Qed.

(** X2 (a collision result means exhaustion): when the error that [New]
    returns is [==] to [ErrSessionCollision], every call within the budget
    collided, the storer was called exactly [maxGenerateAttempts] times
    (none for a budget below 1), the error is [ErrSessionCollision] itself
    and the identifier is [[]byte{}]: the sessions that the storer returned
    with its collisions are dropped. *)
Theorem New_collision_means_exhausted
  {Ctx St : Type} (storer : SessionStorer Ctx St)
  (ctx : Ctx) (userId metaData : string) (maxGenerateAttempts : Z)
  (st : St) (n : nat) :
  collides (fst (New (storer := counting storer) ctx userId metaData
                   maxGenerateAttempts (Counted st n))) = true ->
  New (storer := counting storer) ctx userId metaData
    maxGenerateAttempts (Counted st n)
  = ((Slice [], ErrSessionCollision),
     Counted
       (after_calls ctx userId metaData (Z.to_nat maxGenerateAttempts) st)
       (n + Z.to_nat maxGenerateAttempts))
  /\ (forall j, (j < Z.to_nat maxGenerateAttempts)%nat ->
        collides (response ctx userId metaData j st) = true).
Proof.
  intros Hc.
  destruct (New_counting_outcome storer ctx userId metaData
              maxGenerateAttempts st n)
    as (K & Hall & [(HK & HNew) | (HK & Hother & HNew)]).
  - subst K. split; [exact HNew | exact Hall].
  - rewrite HNew in Hc. cbn [fst] in Hc. congruence.
Qed.

Lemma New_collision_means_exhausted_witness :
  New (storer := counting scripted) tt "alice" "role=admin" 2
    (Counted (Script [(session_abc, ErrSessionCollision)]
                (NilSlice, ErrSessionCollision)) 0)
  = ((Slice [], ErrSessionCollision),
     Counted (Script [] (NilSlice, ErrSessionCollision)) 2)
  /\ (forall j, (j < 2)%nat ->
        collides (response tt "alice" "role=admin" j
                    (Script [(session_abc, ErrSessionCollision)]
                       (NilSlice, ErrSessionCollision))) = true).
Proof.
  apply (New_collision_means_exhausted scripted tt "alice" "role=admin" 2
           (Script [(session_abc, ErrSessionCollision)]
              (NilSlice, ErrSessionCollision)) 0).
  reflexivity.
Defined.

(** X3 (success means a stored session): when [New] returns a nil error,
    the identifier is the session that a call of [GenerateAndStore] within
    the budget returned with a nil error; every call before it collided,
    and none came after it. *)
Theorem New_success_means_stored
  {Ctx St : Type} (storer : SessionStorer Ctx St)
  (ctx : Ctx) (userId metaData : string) (maxGenerateAttempts : Z)
  (st : St) (n : nat) (session : byte_slice) (c' : counted St) :
  New (storer := counting storer) ctx userId metaData
    maxGenerateAttempts (Counted st n) = ((session, nil), c') ->
  exists K,
    Z.of_nat K < maxGenerateAttempts
    /\ (forall j, (j < K)%nat ->
          collides (response ctx userId metaData j st) = true)
    /\ GenerateAndStore (after_calls ctx userId metaData K st)
         ctx userId metaData = ((session, nil), inner c')
    /\ calls c' = (n + K + 1)%nat.
Proof.
  intros HNew.
  destruct (New_counting_outcome storer ctx userId metaData
              maxGenerateAttempts st n)
    as (K & Hall & [(HK & HNew') | (HK & Hother & HNew')]);
    rewrite HNew in HNew'.
  - discriminate.
  - exists K.
    pose proof (f_equal fst HNew') as Hresp.
    pose proof (f_equal snd HNew') as Hc'.
    cbn [fst snd] in Hresp, Hc'. subst c'. cbn [inner calls].
    split; [exact HK | split; [exact Hall | split; [| reflexivity]]].
    rewrite after_calls_succ, Hresp. unfold response.
    now destruct (GenerateAndStore (after_calls ctx userId metaData K st)
                    ctx userId metaData).
Qed.

Lemma New_success_means_stored_witness :
  exists K,
    Z.of_nat K < 5
    /\ (forall j, (j < K)%nat ->
          collides (response tt "alice" "role=admin" j
                      (Script [(NilSlice, ErrSessionCollision);
                               (session_abc, nil)]
                         (NilSlice, Some errUnavailable))) = true)
    /\ GenerateAndStore
         (after_calls tt "alice" "role=admin" K
            (Script [(NilSlice, ErrSessionCollision); (session_abc, nil)]
               (NilSlice, Some errUnavailable)))
         tt "alice" "role=admin"
       = ((session_abc, nil), Script [] (NilSlice, Some errUnavailable))
    /\ 2%nat = (0 + K + 1)%nat.
Proof.
  apply (New_success_means_stored scripted tt "alice" "role=admin" 5
           (Script [(NilSlice, ErrSessionCollision); (session_abc, nil)]
              (NilSlice, Some errUnavailable)) 0 session_abc
           (Counted (Script [] (NilSlice, Some errUnavailable)) 2)).
  reflexivity.
Defined.

(** X4 (a larger budget changes no settled result): when [New] under some
    budget returns anything but the collision, it returns the same pair and
    leaves the storer in the same state under every larger budget. *)
Theorem New_budget_monotone
  {Ctx St : Type} (storer : SessionStorer Ctx St)
  (ctx : Ctx) (userId metaData : string) (budget larger : Z) (st : St) :
  budget <= larger ->
  collides (fst (New ctx userId metaData budget st)) = false ->
  New ctx userId metaData larger st = New ctx userId metaData budget st.
Proof.
  intros Hle Hc.
  destruct (New_outcome ctx userId metaData budget st)
    as (K & Hall & [(HK & HNew) | (HK & Hother & HNew)]).
  - rewrite HNew in Hc. discriminate.
  - rewrite HNew. apply New_returns; (assumption || lia).
Qed.

Lemma New_budget_monotone_witness :
  New (storer := scripted) tt "alice" "role=admin" 5
    (Script [(NilSlice, ErrSessionCollision); (session_abc, nil)]
       (NilSlice, Some errUnavailable))
  = New (storer := scripted) tt "alice" "role=admin" 2
      (Script [(NilSlice, ErrSessionCollision); (session_abc, nil)]
         (NilSlice, Some errUnavailable)).
Proof.
  apply (New_budget_monotone scripted tt "alice" "role=admin" 2 5).
  - lia.
  - reflexivity.
Defined.

(** X5 (calling again after exhaustion): for budgets [a] and [b] that are
    not negative, one call of [New] with budget [a + b] does what a call
    with budget [a] does, followed, when that one ends in the collision, by
    a call with budget [b] on the storer as the first left it. *)
Theorem New_budget_split
  {Ctx St : Type} (storer : SessionStorer Ctx St)
  (ctx : Ctx) (userId metaData : string) (a b : Z) (st : St) :
  0 <= a -> 0 <= b ->
  New ctx userId metaData (a + b) st
  = if collides (fst (New ctx userId metaData a st))
    then New ctx userId metaData b (snd (New ctx userId metaData a st))
    else New ctx userId metaData a st.
Proof.
  intros Ha Hb.
  destruct (New_outcome ctx userId metaData a st)
    as (K & Hall & [(HK & HNew) | (HK & Hother & HNew)]).
  - rewrite HNew. cbn [fst snd]. change (collides _) with true. cbv iota.
    unfold New.
    rewrite (New_loop_collisions ctx userId metaData (a + b) K)
      by (assumption || lia).
    rewrite (New_loop_shift ctx userId metaData b a 0).
    f_equal; lia.
  - assert (Hc : collides (fst (New ctx userId metaData a st)) = false).
    { rewrite HNew. exact Hother. }
    rewrite Hc, HNew. apply New_returns; (assumption || lia).
Qed.

Lemma New_budget_split_witness :
  New (storer := scripted) tt "alice" "role=admin" (1 + 2)
    (Script [(NilSlice, ErrSessionCollision); (session_abc, nil)]
       (NilSlice, Some errUnavailable))
  = New (storer := scripted) tt "alice" "role=admin" 2
      (Script [(session_abc, nil)] (NilSlice, Some errUnavailable)).
Proof.
  apply (New_budget_split scripted tt "alice" "role=admin" 1 2
           (Script [(NilSlice, ErrSessionCollision); (session_abc, nil)]
              (NilSlice, Some errUnavailable))); lia.
Defined.

Lemma logging_call
  {Ctx St : Type} (storer : SessionStorer Ctx St)
  (ctx : Ctx) (userId metaData : string) (l : logged Ctx St) :
  GenerateAndStore (SessionStorer := logging storer) l ctx userId metaData
  = (fst (GenerateAndStore (backend l) ctx userId metaData),
     Logged (snd (GenerateAndStore (backend l) ctx userId metaData))
       (log l ++ [(ctx, userId, metaData)])).
Proof.
  cbn. now destruct (GenerateAndStore (backend l) ctx userId metaData).
Qed.

(** X6 (the same arguments on every attempt): each call of
    [GenerateAndStore] that [New] makes is given the context, the user
    identifier and the metadata that [New] was given; there are at most
    [maxGenerateAttempts] of them. *)
Theorem New_same_arguments
  {Ctx St : Type} (storer : SessionStorer Ctx St)
  (ctx : Ctx) (userId metaData : string) (maxGenerateAttempts : Z)
  (l : logged Ctx St) :
  exists k,
    (k <= Z.to_nat maxGenerateAttempts)%nat
    /\ log (snd (New (storer := logging storer) ctx userId metaData
                   maxGenerateAttempts l))
       = log l ++ repeat (ctx, userId, metaData) k.
Proof.
  unfold New.
  assert (H : forall i l0,
             exists k,
               (k <= Z.to_nat (maxGenerateAttempts - i))%nat
               /\ log (snd (New_loop (storer := logging storer) ctx userId
                              metaData maxGenerateAttempts i l0))
                  = log l0 ++ repeat (ctx, userId, metaData) k).
  { apply (New_loop_induction (storer := logging storer) ctx userId
             metaData maxGenerateAttempts
             (fun i0 l0 r =>
                exists k,
                  (k <= Z.to_nat (maxGenerateAttempts - i0))%nat
                  /\ log (snd r)
                     = log l0 ++ repeat (ctx, userId, metaData) k)).
    - intros i0 l0 _. exists O. split; [lia |].
      cbn. now rewrite app_nil_r.
    - intros i0 l0 Hlt _. exists 1%nat. split; [lia |].
      now rewrite logging_call.
    - intros i0 l0 r Hlt _ (k & Hk & Hlog).
      exists (S k). split; [lia |].
      rewrite Hlog, logging_call. cbn [snd log repeat].
      now rewrite <- app_assoc. }
  destruct (H 0 l) as (k & Hk & Hlog).
  exists k. split; [| exact Hlog].
  now rewrite Z.sub_0_r in Hk.
Qed.

(** ** Further properties of [Generate] *)






Lemma skipn_zeroed (k m : nat) :
  skipn k (repeat Byte.x00 m) = repeat Byte.x00 (m - k).
Proof.
  revert m. induction k as [|k IH]; intros [|m]; cbn; try reflexivity.
  apply IH.
Qed.


